(** * LEDApi: the HTTP control surface of the LED controller

    A shallow embedding of [Firmware/LEDApi.h].  The handlers are static
    member functions that talk to three collaborators: the JSON library
    (ArduinoJson 6), the effect engine ([LEDController], the State Facade)
    and the non-volatile store ([NVSManager], the Persistence Facade).
    Each handler is a computation in a state monad over a [World] that
    holds the two facade states, the chronological list of facade calls,
    the responses sent and the serial log. *)

From Stdlib Require Import ZArith QArith Qround Ascii String DecimalString List Bool Lia.
From ExtLib Require Import Structures.Monad Data.Monads.StateMonad.
Import ListNotations.
Import MonadNotation.
Local Open Scope monad_scope.
Local Open Scope string_scope.
Local Open Scope list_scope.
Local Open Scope Z_scope.

(** ** The JSON values a request body can hold (ArduinoJson 6)

    [JInt] is an integer literal of the body, [JFloat] the value of a
    stored double (every finite double is a rational).  An object keeps its
    members in insertion order, as ArduinoJson's linked list does.

    The conversions are those of ArduinoJson 6.10 and later (the API the
    handlers use, [StaticJsonDocument] and [containsKey], is that of
    version 6): [as<T>()] on a number goes through [convertNumber<T>],
    which checks with [canConvertNumber<T>] that the stored number fits
    [T] and yields 0 when it does not; it is not a C cast. *)
Module Json.

Set Warnings "-register-all".

Inductive JsonVariant : Type :=
| JNull
| JBool (b : bool)
| JInt (z : Z)
| JFloat (q : Q)
| JString (s : string)
| JArray (l : list JsonVariant)
| JObject (m : list (string * JsonVariant)).

Definition JsonPair : Type := (string * JsonVariant)%type.
Definition JsonObject : Type := list JsonPair.

(** What [parseNumber] leaves in its result variant: an integer, a float,
    or nothing when the text is not a number. *)
Inductive Number : Type :=
| NInt (z : Z)
| NFloat (q : Q)
| NNone.

(** The two entry points of the library that are kept abstract: the
    text-to-number parser used when a string is read as a number, and the
    serializer. *)
Class ArduinoJson : Type := {
  parseNumber : string -> Number;
  serializeJson : JsonVariant -> string
}.

(** [json.as<JsonObject>()]: a variant that is not an object gives the
    null object, which has no member. *)
Definition as_JsonObject (json : JsonVariant) : JsonObject :=
  match json with
  | JObject m => m
  | _ => []
  end.

(** [obj.size()] *)
Definition size (obj : JsonObject) : Z := Z.of_nat (length obj).

(** [obj.containsKey(key)]: the key is present, whatever its value. *)
Fixpoint containsKey (obj : JsonObject) (key : string) : bool :=
  match obj with
  | [] => false
  | (k, _) :: rest => if String.eqb k key then true else containsKey rest key
  end.

(** [obj[key]]: the first member of that name; an absent member reads as
    the null variant. *)
Fixpoint getMember (obj : JsonObject) (key : string) : JsonVariant :=
  match obj with
  | [] => JNull
  | (k, v) :: rest => if String.eqb k key then v else getMember rest key
  end.

(** [doc[key]] on a document root. *)
Definition docMember (doc : JsonVariant) (key : string) : JsonVariant :=
  getMember (as_JsonObject doc) key.

(** [convertNumber<uint8_t>(value)], that is
    [canConvertNumber<uint8_t>(value) ? uint8_t(value) : 0]: a value that
    does not fit the target type converts to 0. *)
Definition convertNumber_uint8 (z : Z) : Z :=
  if (0 <=? z) && (z <=? 255) then z else 0.

(** The same from a stored double: within 0..255 the cast drops the
    fraction. *)
Definition convertFloat_uint8 (q : Q) : Z :=
  if Qle_bool 0 q && Qle_bool q 255 then Qfloor q else 0.

Definition number_as_uint8 (n : Number) : Z :=
  match n with
  | NInt z => convertNumber_uint8 z
  | NFloat q => convertFloat_uint8 q
  | NNone => 0
  end.

(** [v.as<uint8_t>()], [VariantData::asIntegral<uint8_t>]: a boolean
    reads as 0 or 1, a number is converted, a string is parsed as a number
    and then converted, anything else reads as 0. *)
Definition as_uint8 `{ArduinoJson} (v : JsonVariant) : Z :=
  match v with
  | JBool b => if b then 1 else 0
  | JInt z => convertNumber_uint8 z
  | JFloat q => convertFloat_uint8 q
  | JString s => number_as_uint8 (parseNumber s)
  | JNull | JArray _ | JObject _ => 0
  end.

(** [v.as<bool>()], [VariantData::asBoolean]: a number is true when it
    is not zero, null is false, any other value is true. *)
Definition as_bool (v : JsonVariant) : bool :=
  match v with
  | JBool b => b
  | JInt z => negb (z =? 0)
  | JFloat q => negb (Qeq_bool q 0)
  | JNull => false
  | JString _ | JArray _ | JObject _ => true
  end.

(** [v.is<bool>()]: the variant holds a boolean. *)
Definition is_bool (v : JsonVariant) : bool :=
  match v with
  | JBool _ => true
  | _ => false
  end.

(** [v | defaultValue] at type [bool], that is
    [v.is<bool>() ? v.as<bool>() : defaultValue]. *)
Definition or_bool (v : JsonVariant) (defaultValue : bool) : bool :=
  if is_bool v then as_bool v else defaultValue.

End Json.
Import Json.

(** ** The collaborators

    [LEDController] and [NVSManager] are classes of the firmware whose
    code is outside this file's subject; the handlers only use the
    interface below.  The getters read the engine state, the setters and
    the save operations transform their state. *)
Class LEDController (S : Type) : Type := {
  getStatusJson : S -> JsonVariant;
  getEffectsJson : S -> JsonVariant;
  getParamsJson : S -> JsonVariant;
  getNumEffects : S -> Z;
  getEffectName : S -> string;
  setEffect : Z -> S -> S;
  setParam : string -> JsonVariant -> S -> S;
  setPower : bool -> S -> S;
  setBrightness : Z -> S -> S
}.

Class NVSManager (N : Type) : Type := {
  saveEffect : Z -> N -> N;
  saveParams : string -> N -> N;
  saveBrightness : Z -> N -> N
}.

(** [Config.h] *)
Class Config : Type := {
  HTTP_CORS_ORIGIN : string
}.

(** One call of the module into a facade, with its arguments. *)
Inductive Call : Type :=
| LED_getStatusJson
| LED_getEffectsJson
| LED_getParamsJson
| LED_getNumEffects
| LED_getEffectName
| LED_setEffect (id : Z)
| LED_setParam (key : string) (value : JsonVariant)
| LED_setPower (on : bool)
| LED_setBrightness (value : Z)
| NVS_saveEffect (id : Z)
| NVS_saveParams (blob : string)
| NVS_saveBrightness (value : Z).

(** A call that can change the engine state. *)
Definition is_state_setter (c : Call) : bool :=
  match c with
  | LED_setEffect _ | LED_setParam _ _ | LED_setPower _ | LED_setBrightness _ => true
  | _ => false
  end.

(** A call into the Persistence Facade. *)
Definition is_persistence (c : Call) : bool :=
  match c with
  | NVS_saveEffect _ | NVS_saveParams _ | NVS_saveBrightness _ => true
  | _ => false
  end.


(** [AsyncWebServerResponse] *)
Record Response : Type := mkResponse {
  code : Z;
  contentType : string;
  content : string;
  headers : list (string * string)
}.

Inductive LogLevel : Type := LERROR | LINFO | LDEBUG | LSECTION.

Inductive Method : Type := HTTP_GET | HTTP_POST | HTTP_OPTIONS.

(** ** The module *)
Module LEDApi.

Section Handlers.

Context {S N : Type}.
Context `{LED : LEDController S} `{NVS : NVSManager N}.
Context `{AJ : ArduinoJson} `{CFG : Config}.

(** Everything a handler can read or change. *)
Record World : Type := mkWorld {
  led : S;
  nvs : N;
  calls : list Call;
  sent : list Response;
  serial : list (LogLevel * string)
}.

Definition M : Type -> Type := state World.

Definition record_call (c : Call) (w : World) : World :=
  mkWorld (led w) (nvs w) (calls w ++ [c]) (sent w) (serial w).

Definition with_led (f : S -> S) (w : World) : World :=
  mkWorld (f (led w)) (nvs w) (calls w) (sent w) (serial w).

Definition with_nvs (f : N -> N) (w : World) : World :=
  mkWorld (led w) (f (nvs w)) (calls w) (sent w) (serial w).

(** [LOG_ERROR], [LOG_INFO], [LOG_DEBUG], [LOG_SECTION] of SerialLogger.h *)
Definition LOG (lvl : LogLevel) (msg : string) : M unit :=
  mkState (fun w =>
    (tt, mkWorld (led w) (nvs w) (calls w) (sent w) (serial w ++ [(lvl, msg)]))).

(** A getter of the State Facade: the call is recorded, the state kept. *)
Definition led_get {A : Type} (c : Call) (f : S -> A) : M A :=
  mkState (fun w => (f (led w), record_call c w)).

Definition led_set (c : Call) (f : S -> S) : M unit :=
  mkState (fun w => (tt, record_call c (with_led f w))).

Definition nvs_save (c : Call) (f : N -> N) : M unit :=
  mkState (fun w => (tt, record_call c (with_nvs f w))).

Definition LEDController_getStatusJson : M JsonVariant :=
  led_get LED_getStatusJson getStatusJson.
Definition LEDController_getEffectsJson : M JsonVariant :=
  led_get LED_getEffectsJson getEffectsJson.
Definition LEDController_getParamsJson : M JsonVariant :=
  led_get LED_getParamsJson getParamsJson.
Definition LEDController_getNumEffects : M Z :=
  led_get LED_getNumEffects getNumEffects.
Definition LEDController_getEffectName : M string :=
  led_get LED_getEffectName getEffectName.
Definition LEDController_setEffect (id : Z) : M unit :=
  led_set (LED_setEffect id) (setEffect id).
Definition LEDController_setParam (key : string) (value : JsonVariant) : M unit :=
  led_set (LED_setParam key value) (setParam key value).
Definition LEDController_setPower (on : bool) : M unit :=
  led_set (LED_setPower on) (setPower on).
Definition LEDController_setBrightness (value : Z) : M unit :=
  led_set (LED_setBrightness value) (setBrightness value).

Definition NVSManager_saveEffect (id : Z) : M unit :=
  nvs_save (NVS_saveEffect id) (saveEffect id).
Definition NVSManager_saveParams (blob : string) : M unit :=
  nvs_save (NVS_saveParams blob) (saveParams blob).
Definition NVSManager_saveBrightness (value : Z) : M unit :=
  nvs_save (NVS_saveBrightness value) (saveBrightness value).

(** [request->beginResponse(code, contentType, content)] *)
Definition beginResponse (c : Z) (ty content : string) : Response :=
  mkResponse c ty content [].

(** [response->addHeader(name, value)] *)
Definition addHeader (name value : string) (r : Response) : Response :=
  mkResponse (code r) (contentType r) (content r) (headers r ++ [(name, value)]).

(** [request->send(response)] *)
Definition send (r : Response) : M unit :=
  mkState (fun w =>
    (tt, mkWorld (led w) (nvs w) (calls w) (sent w ++ [r]) (serial w))).

Definition addCorsHeaders (response : Response) : Response :=
  addHeader "Access-Control-Allow-Headers" "Content-Type"
    (addHeader "Access-Control-Allow-Methods" "GET, POST, OPTIONS"
       (addHeader "Access-Control-Allow-Origin" HTTP_CORS_ORIGIN response)).

Definition sendError (c : Z) (message : string) : M unit :=
  let doc := JObject [("error", JString message)] in
  let response := serializeJson doc in
  let res := beginResponse c "application/json" response in
  send (addCorsHeaders res).

(** The tail shared by the successful paths: serialize the document and
    send it with code 200. *)
Definition sendJson (doc : JsonVariant) : M unit :=
  let response := serializeJson doc in
  let res := beginResponse 200 "application/json" response in
  send (addCorsHeaders res).

(** [for (JsonPair kv : jsonObj) body(kv)] *)
Fixpoint forEach (obj : JsonObject) (body : JsonPair -> M unit) : M unit :=
  match obj with
  | [] => ret tt
  | kv :: rest => body kv ;; forEach rest body
  end.

(** GET /api/led/status *)
Definition handleStatus : M unit :=
  LOG LDEBUG "GET /api/led/status" ;;
  doc <- LEDController_getStatusJson ;;
  sendJson doc.

(** GET /api/led/effects *)
Definition handleEffects : M unit :=
  LOG LDEBUG "GET /api/led/effects" ;;
  doc <- LEDController_getEffectsJson ;;
  sendJson doc.

(** GET /api/led/params *)
Definition handleGetParams : M unit :=
  LOG LDEBUG "GET /api/led/params" ;;
  doc <- LEDController_getParamsJson ;;
  sendJson doc.

(** POST /api/led/effect *)
Definition handleSetEffect (json : JsonVariant) : M unit :=
  LOG LDEBUG "POST /api/led/effect" ;;
  let jsonObj := as_JsonObject json in
  if negb (containsKey jsonObj "id") then
    sendError 400 "Missing 'id' field"
  else
    let effectId := as_uint8 (getMember jsonObj "id") in
    numEffects <- LEDController_getNumEffects ;;
    if numEffects <=? effectId then
      sendError 400 "Invalid effect ID"
    else
      LEDController_setEffect effectId ;;
      NVSManager_saveEffect effectId ;;
      effectName <- LEDController_getEffectName ;;
      sendJson (JObject [("status", JString "ok");
                         ("effect", JInt effectId);
                         ("effectName", JString effectName)]).

(** POST /api/led/params *)
Definition handleSetParams (json : JsonVariant) : M unit :=
  LOG LDEBUG "POST /api/led/params" ;;
  let jsonObj := as_JsonObject json in
  if size jsonObj =? 0 then
    sendError 400 "Empty parameters"
  else
    forEach jsonObj (fun kv => LEDController_setParam (fst kv) (snd kv)) ;;
    paramsDoc <- LEDController_getParamsJson ;;
    let paramsJson := serializeJson (docMember paramsDoc "params") in
    NVSManager_saveParams paramsJson ;;
    sendJson (JObject [("status", JString "ok");
                       ("updated", JInt (size jsonObj))]).

(** POST /api/led/power *)
Definition handlePower (json : JsonVariant) : M unit :=
  LOG LDEBUG "POST /api/led/power" ;;
  let jsonObj := as_JsonObject json in
  if negb (containsKey jsonObj "on") then
    sendError 400 "Missing 'on' field"
  else
    let powerOn := as_bool (getMember jsonObj "on") in
    LEDController_setPower powerOn ;;
    sendJson (JObject [("status", JString "ok");
                       ("power", JBool powerOn)]).

(** POST /api/led/brightness *)
Definition handleBrightness (json : JsonVariant) : M unit :=
  LOG LDEBUG "POST /api/led/brightness" ;;
  let jsonObj := as_JsonObject json in
  if negb (containsKey jsonObj "value") then
    sendError 400 "Missing 'value' field"
  else
    let brightness := as_uint8 (getMember jsonObj "value") in
    LEDController_setBrightness brightness ;;
    let shouldSave := or_bool (getMember jsonObj "save") false in
    (if shouldSave then NVSManager_saveBrightness brightness else ret tt) ;;
    sendJson (JObject [("status", JString "ok");
                       ("brightness", JInt brightness)]).

(** The lambda registered for the CORS preflight. *)
Definition handleOptions : M unit :=
  let response := mkResponse 200 EmptyString EmptyString [] in
  send (addCorsHeaders response).

(** What [server->on] and [server->addHandler] store. *)
Inductive Route : Type :=
| On (uri : string) (method : Method) (onRequest : M unit)
| JsonHandler (uri : string) (onRequest : JsonVariant -> M unit).

(** [AsyncWebServer]: the handlers in registration order. *)
Record AsyncWebServer : Type := mkServer {
  handlers : list Route
}.

Definition on (uri : string) (method : Method) (h : M unit)
    (server : AsyncWebServer) : AsyncWebServer :=
  mkServer (handlers server ++ [On uri method h]).

Definition addHandler (uri : string) (h : JsonVariant -> M unit)
    (server : AsyncWebServer) : AsyncWebServer :=
  mkServer (handlers server ++ [JsonHandler uri h]).

(** The registrations of [begin], in source order. *)
Definition registerRoutes (server : AsyncWebServer) : AsyncWebServer :=
  addHandler "/api/led/brightness" handleBrightness
    (addHandler "/api/led/power" handlePower
       (addHandler "/api/led/params" handleSetParams
          (addHandler "/api/led/effect" handleSetEffect
             (on "/api/led/params" HTTP_GET handleGetParams
                (on "/api/led/effects" HTTP_GET handleEffects
                   (on "/api/led/status" HTTP_GET handleStatus
                      (on "/api/led/*" HTTP_OPTIONS handleOptions server))))))).

(** [begin(server)]: the argument is a pointer, [None] when null; the
    result is the server object after the call. *)
Definition begin (server : option AsyncWebServer) : M (option AsyncWebServer) :=
  match server with
  | None =>
      LOG LERROR "LEDApi: Server is null!" ;;
      ret None
  | Some srv =>
      LOG LSECTION "Initializing LED API" ;;
      let srv' := registerRoutes srv in
      LOG LINFO "LED API endpoints registered" ;;
      LOG LINFO "  GET  /api/led/status" ;;
      LOG LINFO "  GET  /api/led/effects" ;;
      LOG LINFO "  GET  /api/led/params" ;;
      LOG LINFO "  POST /api/led/effect" ;;
      LOG LINFO "  POST /api/led/params" ;;
      LOG LINFO "  POST /api/led/power" ;;
      LOG LINFO "  POST /api/led/brightness" ;;
      ret (Some srv')
  end.

(** *** Vocabulary of the properties *)

(** The response that carries one JSON document: its code, the JSON
    content type, the serialized document and the three CORS headers. *)
Definition jsonResponse (c : Z) (doc : JsonVariant) : Response :=
  mkResponse c "application/json" (serializeJson doc)
    [("Access-Control-Allow-Origin", HTTP_CORS_ORIGIN);
     ("Access-Control-Allow-Methods", "GET, POST, OPTIONS");
     ("Access-Control-Allow-Headers", "Content-Type")].

(** The body of the single-key shape with an error message. *)
Definition errorResponse (c : Z) (message : string) : Response :=
  jsonResponse c (JObject [("error", JString message)]).

(** The four mutating endpoints and the handler bound to each. *)
Inductive Endpoint : Type := EPEffect | EPParams | EPPower | EPBrightness.

Definition handlerOf (e : Endpoint) : JsonVariant -> M unit :=
  match e with
  | EPEffect => handleSetEffect
  | EPParams => handleSetParams
  | EPPower => handlePower
  | EPBrightness => handleBrightness
  end.



(** The engine state after the loop of [handleSetParams]. *)
Definition applyParams (obj : JsonObject) (s : S) : S :=
  fold_left (fun s kv => setParam (fst kv) (snd kv) s) obj s.

End Handlers.

End LEDApi.

(** ** A fake device

    A small engine with three effects and a store that remembers the
    last value of each key, against which the handlers can be run. *)
Module Fake.

Record Engine : Type := mkEngine {
  effect : Z;
  params : JsonObject;
  power : bool;
  brightness : Z
}.

Definition effectNames : list string := ["Rainbow"; "Fire"; "Sparkle"].

(** Merge-update of one parameter: an existing key keeps its place. *)
Fixpoint update (key : string) (value : JsonVariant) (obj : JsonObject) : JsonObject :=
  match obj with
  | [] => [(key, value)]
  | (k, v) :: rest =>
      if String.eqb k key then (k, value) :: rest
      else (k, v) :: update key value rest
  end.

Definition printZ (z : Z) : string := NilZero.string_of_int (Z.to_int z).

Definition quoted (s : string) : string :=
  String "034"%char (String.append s (String "034"%char EmptyString)).

(** A compact printer; a float is printed by its integer part. *)
Fixpoint print (v : JsonVariant) : string :=
  match v with
  | JNull => "null"
  | JBool b => if b then "true" else "false"
  | JInt z => printZ z
  | JFloat q => printZ (Qfloor q)
  | JString s => quoted s
  | JArray l =>
      String.append "["
        (String.append
           ((fix items (l : list JsonVariant) : string :=
               match l with
               | [] => EmptyString
               | x :: r =>
                   String.append (print x)
                     (String.append (match r with [] => EmptyString | _ => "," end)
                        (items r))
               end) l)
           "]")
  | JObject m =>
      String.append "{"
        (String.append
           ((fix members (m : list (string * JsonVariant)) : string :=
               match m with
               | [] => EmptyString
               | (k, x) :: r =>
                   String.append (quoted k)
                     (String.append ":"
                        (String.append (print x)
                           (String.append
                              (match r with [] => EmptyString | _ => "," end)
                              (members r))))
               end) m)
           "}")
  end.

#[export] Instance engine : LEDController Engine := {
  getStatusJson e :=
    JObject [("power", JBool (power e)); ("brightness", JInt (brightness e));
             ("effect", JInt (effect e))];
  getEffectsJson _ :=
    JArray [JObject [("id", JInt 0); ("name", JString "Rainbow")];
            JObject [("id", JInt 1); ("name", JString "Fire")];
            JObject [("id", JInt 2); ("name", JString "Sparkle")]];
  getParamsJson e :=
    JObject [("effect", JInt (effect e)); ("params", JObject (params e))];
  getNumEffects _ := Z.of_nat (length effectNames);
  getEffectName e := nth (Z.to_nat (effect e)) effectNames EmptyString;
  setEffect id e := mkEngine id (params e) (power e) (brightness e);
  setParam key value e :=
    mkEngine (effect e) (update key value (params e)) (power e) (brightness e);
  setPower on e := mkEngine (effect e) (params e) on (brightness e);
  setBrightness value e := mkEngine (effect e) (params e) (power e) value
}.

Record Flash : Type := mkFlash {
  savedEffect : option Z;
  savedParams : option string;
  savedBrightness : option Z
}.

#[export] Instance flash : NVSManager Flash := {
  saveEffect id f := mkFlash (Some id) (savedParams f) (savedBrightness f);
  saveParams blob f := mkFlash (savedEffect f) (Some blob) (savedBrightness f);
  saveBrightness value f := mkFlash (savedEffect f) (savedParams f) (Some value)
}.

#[export] Instance json : ArduinoJson := {
  parseNumber _ := NNone;
  serializeJson := print
}.

#[export] Instance config : Config := {
  HTTP_CORS_ORIGIN := "*"
}.

Definition engine0 : Engine :=
  mkEngine 1 [("speed", JInt 10); ("hue", JInt 128)] true 64.

Definition flash0 : Flash := mkFlash None None None.

Definition world0 : LEDApi.World :=
  LEDApi.mkWorld engine0 flash0 [] [] [].

(** Request bodies. *)
Definition effect_2 : JsonVariant := JObject [("id", JInt 2)].
Definition effect_7 : JsonVariant := JObject [("id", JInt 7)].
Definition effect_256 : JsonVariant := JObject [("id", JInt 256)].
Definition effect_300 : JsonVariant := JObject [("id", JInt 300)].
Definition params_speed : JsonObject := [("speed", JInt 5)].
Definition brightness_300 : JsonVariant := JObject [("value", JInt 300)].
Definition brightness_200_save : JsonVariant :=
  JObject [("value", JInt 200); ("save", JBool true)].
Definition brightness_200_save_1 : JsonVariant :=
  JObject [("value", JInt 200); ("save", JInt 1)].
Definition effect_null : JsonVariant := JObject [("id", JNull)].
Definition effect_minus_1 : JsonVariant := JObject [("id", JInt (-1))].
Definition power_off : JsonVariant := JObject [("on", JBool false)].
Definition params_two : JsonVariant :=
  JObject [("speed", JInt 5); ("sparkle", JBool true)].
Definition not_an_object : JsonVariant := JArray [JInt 1; JInt 2].

Definition engine1 : Engine := mkEngine 0 [] false 255.

Definition world1 : LEDApi.World :=
  LEDApi.mkWorld engine1 flash0 [LED_getStatusJson] [] [].

End Fake.

(** ** Requests as the server hands them to the module

    One value per registered handler, with the parsed body for the four
    JSON handlers, so that a statement can range over every request the
    module serves. *)
Module Requests.
Import LEDApi.

Section Vocabulary.

Context {S N : Type}.
Context `{LED : LEDController S} `{NVS : NVSManager N}.
Context `{AJ : ArduinoJson} `{CFG : Config}.

Inductive Request : Type :=
| ReqOptions
| ReqStatus
| ReqEffects
| ReqGetParams
| ReqSetEffect (json : JsonVariant)
| ReqSetParams (json : JsonVariant)
| ReqPower (json : JsonVariant)
| ReqBrightness (json : JsonVariant).

(** The handler [begin] binds to the request. *)
Definition handle (rq : Request) : @M S N unit :=
  match rq with
  | ReqOptions => handleOptions
  | ReqStatus => handleStatus
  | ReqEffects => handleEffects
  | ReqGetParams => handleGetParams
  | ReqSetEffect json => handleSetEffect json
  | ReqSetParams json => handleSetParams json
  | ReqPower json => handlePower json
  | ReqBrightness json => handleBrightness json
  end.

(** The three GET routes, the getter each one reads and the call it makes. *)
Inductive GetRoute : Type := GetStatus | GetEffects | GetParams.

Definition getHandler (g : GetRoute) : @M S N unit :=
  match g with
  | GetStatus => handleStatus
  | GetEffects => handleEffects
  | GetParams => handleGetParams
  end.

Definition getDocument (g : GetRoute) : S -> JsonVariant :=
  match g with
  | GetStatus => getStatusJson
  | GetEffects => getEffectsJson
  | GetParams => getParamsJson
  end.

Definition getCall (g : GetRoute) : Call :=
  match g with
  | GetStatus => LED_getStatusJson
  | GetEffects => LED_getEffectsJson
  | GetParams => LED_getParamsJson
  end.

(** The headers [addCorsHeaders] puts on a response without headers. *)
Definition corsHeaders : list (string * string) :=
  [("Access-Control-Allow-Origin", HTTP_CORS_ORIGIN);
   ("Access-Control-Allow-Methods", "GET, POST, OPTIONS");
   ("Access-Control-Allow-Headers", "Content-Type")].

(** The message a mutating endpoint sends for a body without members. *)
Definition emptyBodyMessage (e : Endpoint) : string :=
  match e with
  | EPEffect => "Missing 'id' field"
  | EPParams => "Empty parameters"
  | EPPower => "Missing 'on' field"
  | EPBrightness => "Missing 'value' field"
  end.

(** The handlers one call of [begin] adds to a server. *)
Definition apiRoutes : list (@Route S N) :=
  [On "/api/led/*" HTTP_OPTIONS handleOptions;
   On "/api/led/status" HTTP_GET handleStatus;
   On "/api/led/effects" HTTP_GET handleEffects;
   On "/api/led/params" HTTP_GET handleGetParams;
   JsonHandler "/api/led/effect" handleSetEffect;
   JsonHandler "/api/led/params" handleSetParams;
   JsonHandler "/api/led/power" handlePower;
   JsonHandler "/api/led/brightness" handleBrightness].

(** [begin] called again on the server a first call returned. *)
Definition beginTwice (server : option AsyncWebServer)
    : @M S N (option AsyncWebServer) :=
  server' <- begin server ;;
  begin server'.

(** The same request served twice in a row. *)
Definition twice (m : @M S N unit) : @M S N unit := m ;; m.

(** A member that holds no scalar: null, an array or an object. *)
Definition is_null_or_container (v : JsonVariant) : bool :=
  match v with
  | JNull | JArray _ | JObject _ => true
  | _ => false
  end.

End Vocabulary.

End Requests.

(** ** An engine without effects *)
Module Bare.

#[export] Instance engine : LEDController unit := {
  getStatusJson _ := JObject [];
  getEffectsJson _ := JArray [];
  getParamsJson _ := JObject [];
  getNumEffects _ := 0;
  getEffectName _ := EmptyString;
  setEffect _ e := e;
  setParam _ _ e := e;
  setPower _ e := e;
  setBrightness _ e := e
}.

Definition world0 : @LEDApi.World unit Fake.Flash :=
  LEDApi.mkWorld tt Fake.flash0 [] [] [].

End Bare.

(** ** Facts about the JSON conversions *)
Module JsonFacts.

Lemma convertNumber_uint8_range (z : Z) : 0 <= convertNumber_uint8 z <= 255.
Proof.
  unfold convertNumber_uint8.
  destruct (0 <=? z) eqn:Hlo; destruct (z <=? 255) eqn:Hhi; simpl; lia.
Qed.

Lemma convertNumber_uint8_fits (z : Z) :
  0 <= z <= 255 -> convertNumber_uint8 z = z.
Proof.
  intros [Hlo Hhi]. unfold convertNumber_uint8.
  apply Z.leb_le in Hlo, Hhi. rewrite Hlo, Hhi. reflexivity.
Qed.

Lemma convertNumber_uint8_overflow (z : Z) :
  z < 0 \/ 255 < z -> convertNumber_uint8 z = 0.
Proof.
  intros H. unfold convertNumber_uint8.
  destruct (0 <=? z) eqn:Hlo; destruct (z <=? 255) eqn:Hhi; simpl; try reflexivity.
  apply Z.leb_le in Hlo, Hhi. lia.
Qed.

Lemma convertFloat_uint8_range (q : Q) : 0 <= convertFloat_uint8 q <= 255.
Proof.
  unfold convertFloat_uint8.
  destruct (Qle_bool 0 q) eqn:Hlo; destruct (Qle_bool q 255) eqn:Hhi; simpl; try lia.
  apply Qle_bool_iff in Hlo, Hhi.
  split.
  - change 0 with (Qfloor (inject_Z 0)). apply Qfloor_resp_le. exact Hlo.
  - change 255 with (Qfloor (inject_Z 255)). apply Qfloor_resp_le. exact Hhi.
Qed.

Lemma number_as_uint8_range (n : Number) : 0 <= number_as_uint8 n <= 255.
Proof.
  destruct n; simpl.
  - apply convertNumber_uint8_range.
  - apply convertFloat_uint8_range.
  - lia.
Qed.

(** Whatever the variant, [as<uint8_t>()] yields a value of the type. *)
Lemma as_uint8_range `{AJ : ArduinoJson} (v : JsonVariant) : 0 <= as_uint8 v <= 255.
Proof.
  destruct v; simpl; try lia.
  - destruct b; lia.
  - apply convertNumber_uint8_range.
  - apply convertFloat_uint8_range.
  - apply number_as_uint8_range.
Qed.

Lemma or_bool_true_iff (v : JsonVariant) :
  or_bool v false = true <-> v = JBool true.
Proof.
  split.
  - destruct v; cbn; try discriminate. intros Hb. subst b. reflexivity.
  - intros Hv. subst v. reflexivity.
Qed.

Lemma or_bool_not_boolean (v : JsonVariant) :
  is_bool v = false -> or_bool v false = false.
Proof. unfold or_bool. intros ->. reflexivity. Qed.

Lemma getMember_absent (obj : JsonObject) (key : string) :
  containsKey obj key = false -> getMember obj key = JNull.
Proof.
  induction obj as [|[k v] rest IH]; simpl; [reflexivity|].
  destruct (String.eqb k key); [discriminate | exact IH].
Qed.

Lemma size_zero (obj : JsonObject) : (size obj =? 0) = true <-> obj = [].
Proof.
  unfold size. destruct obj; simpl; split; intros H; try reflexivity; try discriminate.
Qed.

End JsonFacts.

(** ** What each handler does to the world *)
Module LEDApiSpec.
Import LEDApi JsonFacts.

Section Runs.

Context {S N : Type}.
Context `{LED : LEDController S} `{NVS : NVSManager N}.
Context `{AJ : ArduinoJson} `{CFG : Config}.

Implicit Types (w : @World S N) (json : JsonVariant).

Ltac flatten_calls := cbn; rewrite <- ?app_assoc; cbn.

Lemma handleSetEffect_missing json w :
  containsKey (as_JsonObject json) "id" = false ->
  execState (handleSetEffect json) w =
    mkWorld (led w) (nvs w) (calls w)
      (sent w ++ [errorResponse 400 "Missing 'id' field"])
      (serial w ++ [(LDEBUG, "POST /api/led/effect")]).
Proof.
  intros Hid. unfold handleSetEffect, execState. cbn. rewrite Hid. reflexivity.
Qed.

Lemma handleSetEffect_invalid json w :
  containsKey (as_JsonObject json) "id" = true ->
  getNumEffects (led w) <= as_uint8 (getMember (as_JsonObject json) "id") ->
  execState (handleSetEffect json) w =
    mkWorld (led w) (nvs w) (calls w ++ [LED_getNumEffects])
      (sent w ++ [errorResponse 400 "Invalid effect ID"])
      (serial w ++ [(LDEBUG, "POST /api/led/effect")]).
Proof.
  intros Hid Hrange. unfold handleSetEffect, execState. cbn. rewrite Hid. cbn.
  apply Z.leb_le in Hrange. rewrite Hrange. reflexivity.
Qed.

Lemma handleSetEffect_valid json w :
  containsKey (as_JsonObject json) "id" = true ->
  as_uint8 (getMember (as_JsonObject json) "id") < getNumEffects (led w) ->
  let effectId := as_uint8 (getMember (as_JsonObject json) "id") in
  execState (handleSetEffect json) w =
    mkWorld (setEffect effectId (led w)) (saveEffect effectId (nvs w))
      (calls w ++ [LED_getNumEffects; LED_setEffect effectId;
                   NVS_saveEffect effectId; LED_getEffectName])
      (sent w ++ [jsonResponse 200
                    (JObject [("status", JString "ok");
                              ("effect", JInt effectId);
                              ("effectName",
                               JString (getEffectName (setEffect effectId (led w))))])])
      (serial w ++ [(LDEBUG, "POST /api/led/effect")]).
Proof.
  intros Hid Hrange effectId. unfold handleSetEffect, execState. cbn.
  rewrite Hid. cbn.
  apply Z.leb_gt in Hrange. rewrite Hrange.
  flatten_calls. reflexivity.
Qed.

(** The loop of [handleSetParams]: one [setParam] per member, in the
    order of the object, and nothing else. *)
Lemma forEach_setParam (obj : JsonObject) w :
  runState (forEach obj (fun kv => LEDController_setParam (fst kv) (snd kv))) w =
    (tt, mkWorld (applyParams obj (led w)) (nvs w)
           (calls w ++ map (fun kv => LED_setParam (fst kv) (snd kv)) obj)
           (sent w) (serial w)).
Proof.
  revert w. induction obj as [|kv rest IH]; intros w.
  - destruct w. cbn. rewrite app_nil_r. reflexivity.
  - cbn. rewrite IH. cbn. rewrite <- app_assoc. reflexivity.
Qed.

Lemma handleSetParams_empty json w :
  as_JsonObject json = [] ->
  execState (handleSetParams json) w =
    mkWorld (led w) (nvs w) (calls w)
      (sent w ++ [errorResponse 400 "Empty parameters"])
      (serial w ++ [(LDEBUG, "POST /api/led/params")]).
Proof.
  intros Hobj. unfold handleSetParams, execState. rewrite Hobj. reflexivity.
Qed.

Lemma handleSetParams_nonempty json w :
  as_JsonObject json <> [] ->
  let obj := as_JsonObject json in
  let led' := applyParams obj (led w) in
  let blob := serializeJson (docMember (getParamsJson led') "params") in
  execState (handleSetParams json) w =
    mkWorld led' (saveParams blob (nvs w))
      (calls w ++ map (fun kv => LED_setParam (fst kv) (snd kv)) obj
               ++ [LED_getParamsJson; NVS_saveParams blob])
      (sent w ++ [jsonResponse 200
                    (JObject [("status", JString "ok");
                              ("updated", JInt (size obj))])])
      (serial w ++ [(LDEBUG, "POST /api/led/params")]).
Proof.
  intros Hobj obj led' blob. unfold handleSetParams, execState.
  fold obj. destruct (size obj =? 0) eqn:Hsize.
  - apply size_zero in Hsize. contradiction.
  - cbn. rewrite forEach_setParam. flatten_calls. reflexivity.
Qed.

Lemma handlePower_missing json w :
  containsKey (as_JsonObject json) "on" = false ->
  execState (handlePower json) w =
    mkWorld (led w) (nvs w) (calls w)
      (sent w ++ [errorResponse 400 "Missing 'on' field"])
      (serial w ++ [(LDEBUG, "POST /api/led/power")]).
Proof.
  intros Hon. unfold handlePower, execState. cbn. rewrite Hon. reflexivity.
Qed.

Lemma handlePower_present json w :
  containsKey (as_JsonObject json) "on" = true ->
  let powerOn := as_bool (getMember (as_JsonObject json) "on") in
  execState (handlePower json) w =
    mkWorld (setPower powerOn (led w)) (nvs w)
      (calls w ++ [LED_setPower powerOn])
      (sent w ++ [jsonResponse 200
                    (JObject [("status", JString "ok");
                              ("power", JBool powerOn)])])
      (serial w ++ [(LDEBUG, "POST /api/led/power")]).
Proof.
  intros Hon powerOn. unfold handlePower, execState. cbn. rewrite Hon. reflexivity.
Qed.

Lemma handleBrightness_missing json w :
  containsKey (as_JsonObject json) "value" = false ->
  execState (handleBrightness json) w =
    mkWorld (led w) (nvs w) (calls w)
      (sent w ++ [errorResponse 400 "Missing 'value' field"])
      (serial w ++ [(LDEBUG, "POST /api/led/brightness")]).
Proof.
  intros Hval. unfold handleBrightness, execState. cbn. rewrite Hval. reflexivity.
Qed.

(** A request with [value]: the live brightness is set, the store is
    written exactly when the [save] member reads as true. *)
Lemma handleBrightness_present json w :
  containsKey (as_JsonObject json) "value" = true ->
  let brightness := as_uint8 (getMember (as_JsonObject json) "value") in
  let shouldSave := or_bool (getMember (as_JsonObject json) "save") false in
  execState (handleBrightness json) w =
    mkWorld (setBrightness brightness (led w))
      (if shouldSave then saveBrightness brightness (nvs w) else nvs w)
      (calls w ++ LED_setBrightness brightness
                  :: (if shouldSave then [NVS_saveBrightness brightness] else []))
      (sent w ++ [jsonResponse 200
                    (JObject [("status", JString "ok");
                              ("brightness", JInt brightness)])])
      (serial w ++ [(LDEBUG, "POST /api/led/brightness")]).
Proof.
  intros Hval brightness shouldSave. unfold handleBrightness, execState. cbn.
  rewrite Hval. cbn. fold shouldSave.
  destruct shouldSave; flatten_calls; reflexivity.
Qed.

Lemma begin_null w :
  runState (begin None) w =
    (None, mkWorld (led w) (nvs w) (calls w) (sent w)
             (serial w ++ [(LERROR, "LEDApi: Server is null!")])).
Proof. reflexivity. Qed.

Lemma begin_server (srv : AsyncWebServer) w :
  fst (runState (begin (Some srv)) w) = Some (registerRoutes srv).
Proof. reflexivity. Qed.

Lemma registerRoutes_handlers (srv : @AsyncWebServer S N) :
  handlers (registerRoutes srv) =
    handlers srv ++
      [On "/api/led/*" HTTP_OPTIONS handleOptions;
       On "/api/led/status" HTTP_GET handleStatus;
       On "/api/led/effects" HTTP_GET handleEffects;
       On "/api/led/params" HTTP_GET handleGetParams;
       JsonHandler "/api/led/effect" handleSetEffect;
       JsonHandler "/api/led/params" handleSetParams;
       JsonHandler "/api/led/power" handlePower;
       JsonHandler "/api/led/brightness" handleBrightness].
Proof.
  unfold registerRoutes, addHandler, on. cbn. rewrite <- !app_assoc. reflexivity.
Qed.

End Runs.

(** ** The properties of the specification *)
Section Claims.

Context {S N : Type}.
Context `{LED : LEDController S} `{NVS : NVSManager N}.
Context `{AJ : ArduinoJson} `{CFG : Config}.

Implicit Types (w : @World S N) (json : JsonVariant).

(** C1. A POST /api/led/params request whose body is a non-empty object
    forwards every member of the body once, in order, to [setParam]; after
    the last one it reads the parameter set back with [getParamsJson] and
    makes one [saveParams] call whose payload is the serialized [params]
    member of that document, read from the engine state after all the
    updates. *)
Theorem handleSetParams_forwards_all_then_saves_full_set (obj : JsonObject) w :
  obj <> [] ->
  let w' := execState (handleSetParams (JObject obj)) w in
  let led' := applyParams obj (led w) in
  let blob := serializeJson (docMember (getParamsJson led') "params") in
  calls w' = calls w ++ map (fun kv => LED_setParam (fst kv) (snd kv)) obj
                     ++ [LED_getParamsJson; NVS_saveParams blob]
  /\ led w' = led'
  /\ nvs w' = saveParams blob (nvs w).
Proof.
  intros Hobj w' led' blob. subst w'.
  rewrite (handleSetParams_nonempty (JObject obj) w Hobj). cbn.
  repeat split; reflexivity.
Qed.

(** C2. A POST /api/led/effect request whose body has an [id]
    member that, once converted to [uint8_t], is greater than or equal to
    the number of effects the engine reports is answered with code 400
    and an error body; [setEffect] is not called, no call reaches the
    store, and both states are left as they were. *)
Theorem handleSetEffect_rejects_converted_id_out_of_range json w :
  containsKey (as_JsonObject json) "id" = true ->
  getNumEffects (led w) <= as_uint8 (getMember (as_JsonObject json) "id") ->
  let w' := execState (handleSetEffect json) w in
  sent w' = sent w ++ [errorResponse 400 "Invalid effect ID"]
  /\ calls w' = calls w ++ [LED_getNumEffects]
  /\ led w' = led w
  /\ nvs w' = nvs w.
Proof.
  intros Hid Hrange w'. subst w'.
  rewrite (handleSetEffect_invalid json w Hid Hrange). cbn.
  repeat split; reflexivity.
Qed.

(** C3. A POST /api/led/effect request with an [id] member that, once
    converted to [uint8_t], is below the number of effects: [setEffect]
    is called with the converted id, the store receives one [saveEffect]
    call with it, and the answer has code 200 and a body with status ok,
    the converted id, and the name the engine reports once the effect is
    selected. *)
Theorem handleSetEffect_selects_and_persists_converted_id json w :
  containsKey (as_JsonObject json) "id" = true ->
  as_uint8 (getMember (as_JsonObject json) "id") < getNumEffects (led w) ->
  let w' := execState (handleSetEffect json) w in
  let effectId := as_uint8 (getMember (as_JsonObject json) "id") in
  calls w' = calls w ++ [LED_getNumEffects; LED_setEffect effectId;
                         NVS_saveEffect effectId; LED_getEffectName]
  /\ led w' = setEffect effectId (led w)
  /\ nvs w' = saveEffect effectId (nvs w)
  /\ sent w' = sent w ++
       [jsonResponse 200
          (JObject [("status", JString "ok");
                    ("effect", JInt effectId);
                    ("effectName",
                     JString (getEffectName (setEffect effectId (led w))))])].
Proof.
  intros Hid Hrange w' effectId. subst w' effectId.
  rewrite (handleSetEffect_valid json w Hid Hrange). cbn.
  repeat split; reflexivity.
Qed.

(** An integer id that fits [uint8_t] converts to itself, so for it the
    id set, saved and echoed is the id of the body. *)
Lemma handleSetEffect_small_integer_id json w (v : Z) :
  containsKey (as_JsonObject json) "id" = true ->
  getMember (as_JsonObject json) "id" = JInt v ->
  0 <= v <= 255 ->
  v < getNumEffects (led w) ->
  let w' := execState (handleSetEffect json) w in
  calls w' = calls w ++ [LED_getNumEffects; LED_setEffect v;
                         NVS_saveEffect v; LED_getEffectName]
  /\ led w' = setEffect v (led w)
  /\ nvs w' = saveEffect v (nvs w)
  /\ sent w' = sent w ++
       [jsonResponse 200
          (JObject [("status", JString "ok");
                    ("effect", JInt v);
                    ("effectName", JString (getEffectName (setEffect v (led w))))])].
Proof.
  intros Hid Hv Hfits Hrange w'. subst w'.
  assert (He : as_uint8 (getMember (as_JsonObject json) "id") = v).
  { rewrite Hv. cbn. apply convertNumber_uint8_fits. exact Hfits. }
  rewrite handleSetEffect_valid by (rewrite ?He; assumption).
  cbn. rewrite He. repeat split; reflexivity.
Qed.

(** C4. A POST /api/led/brightness request with a [value] member calls
    [setBrightness] with the converted value; when the [save] member is
    the boolean true the store receives one [saveBrightness] call with
    that same value, and in every other case (member absent, or anything
    but true) no call reaches the store. *)
Theorem handleBrightness_persists_iff_save_true json w :
  containsKey (as_JsonObject json) "value" = true ->
  let w' := execState (handleBrightness json) w in
  let brightness := as_uint8 (getMember (as_JsonObject json) "value") in
  let save := getMember (as_JsonObject json) "save" in
  led w' = setBrightness brightness (led w)
  /\ (save = JBool true ->
        calls w' = calls w ++ [LED_setBrightness brightness;
                               NVS_saveBrightness brightness]
        /\ nvs w' = saveBrightness brightness (nvs w))
  /\ (save <> JBool true ->
        calls w' = calls w ++ [LED_setBrightness brightness]
        /\ nvs w' = nvs w).
Proof.
  intros Hval w' brightness save. subst w'.
  rewrite (handleBrightness_present json w Hval). cbn. fold save brightness.
  split; [reflexivity|]. split; intros Hsave.
  - rewrite (proj2 (or_bool_true_iff save) Hsave). split; reflexivity.
  - destruct (or_bool save false) eqn:Hor.
    + apply or_bool_true_iff in Hor. contradiction.
    + split; reflexivity.
Qed.



(** C6. A POST /api/led/brightness request with a [value] member is never
    rejected for the size of the value: whatever the member holds, it is
    converted to [uint8_t], the answer has code 200, and the brightness
    applied to the engine and echoed in the body lies within 0..255. *)
Theorem handleBrightness_never_rejects_value json w :
  containsKey (as_JsonObject json) "value" = true ->
  let w' := execState (handleBrightness json) w in
  let brightness := as_uint8 (getMember (as_JsonObject json) "value") in
  0 <= brightness <= 255
  /\ led w' = setBrightness brightness (led w)
  /\ sent w' = sent w ++
       [jsonResponse 200
          (JObject [("status", JString "ok"); ("brightness", JInt brightness)])].
Proof.
  intros Hval w' brightness. subst w'.
  rewrite (handleBrightness_present json w Hval). cbn.
  split; [apply as_uint8_range|]. split; reflexivity.
Qed.

(** C7. No POST /api/led/power request, whatever its body, reaches the
    Persistence Facade: the store is unchanged, and the only facade call
    of a request with an [on] member is [setPower] with the boolean the
    member converts to; a request without it makes no call. *)
Theorem handlePower_never_persists json w :
  let w' := execState (handlePower json) w in
  let obj := as_JsonObject json in
  nvs w' = nvs w
  /\ calls w' = calls w ++
       (if containsKey obj "on"
        then [LED_setPower (as_bool (getMember obj "on"))]
        else []).
Proof.
  intros w' obj. subst w' obj.
  destruct (containsKey (as_JsonObject json) "on") eqn:Hon.
  - rewrite (handlePower_present json w Hon). cbn. split; reflexivity.
  - rewrite (handlePower_missing json w Hon). cbn. rewrite app_nil_r.
    split; reflexivity.
Qed.

(** C8. [begin] with a null server logs one error line and returns: no
    server object results, nothing is registered, and the rest of the
    world is untouched.  It is the only check: with any server at all,
    [begin] registers the eight handlers after those the server has. *)
Theorem begin_null_registers_nothing w (srv : AsyncWebServer) :
  runState (begin None) w =
    (None, mkWorld (led w) (nvs w) (calls w) (sent w)
             (serial w ++ [(LERROR, "LEDApi: Server is null!")]))
  /\ exists srv',
       fst (runState (begin (Some srv)) w) = Some srv'
       /\ handlers srv' =
            handlers srv ++
              [On "/api/led/*" HTTP_OPTIONS handleOptions;
               On "/api/led/status" HTTP_GET handleStatus;
               On "/api/led/effects" HTTP_GET handleEffects;
               On "/api/led/params" HTTP_GET handleGetParams;
               JsonHandler "/api/led/effect" handleSetEffect;
               JsonHandler "/api/led/params" handleSetParams;
               JsonHandler "/api/led/power" handlePower;
               JsonHandler "/api/led/brightness" handleBrightness].
Proof.
  split; [apply begin_null|].
  exists (registerRoutes srv). split.
  - apply begin_server.
  - apply registerRoutes_handlers.
Qed.

(** C9. In POST /api/led/effect the range check is made on the
    [id] member after its conversion to [uint8_t]: an integer within
    0..255 is compared as itself, and an integer outside 0..255 converts
    to 0 and is compared as 0.  The request is accepted exactly when the
    converted id is below the number of effects; in particular an id of
    256 is accepted and selects effect 0 as soon as one effect exists. *)
Theorem handleSetEffect_checks_converted_id json w (v : Z) :
  containsKey (as_JsonObject json) "id" = true ->
  getMember (as_JsonObject json) "id" = JInt v ->
  let w' := execState (handleSetEffect json) w in
  let effectId := if (0 <=? v) && (v <=? 255) then v else 0 in
  (effectId < getNumEffects (led w) ->
     calls w' = calls w ++ [LED_getNumEffects; LED_setEffect effectId;
                            NVS_saveEffect effectId; LED_getEffectName])
  /\ (getNumEffects (led w) <= effectId ->
        calls w' = calls w ++ [LED_getNumEffects]
        /\ sent w' = sent w ++ [errorResponse 400 "Invalid effect ID"])
  /\ (v = 256 -> 1 <= getNumEffects (led w) ->
        calls w' = calls w ++ [LED_getNumEffects; LED_setEffect 0;
                               NVS_saveEffect 0; LED_getEffectName]).
Proof.
  intros Hid Hv w' effectId. subst w'.
  assert (He : as_uint8 (getMember (as_JsonObject json) "id") = effectId).
  { rewrite Hv. reflexivity. }
  split; [|split].
  - intros Hlt. rewrite handleSetEffect_valid by (rewrite ?He; assumption).
    cbn. rewrite He. reflexivity.
  - intros Hge. rewrite handleSetEffect_invalid by (rewrite ?He; assumption).
    cbn. split; reflexivity.
  - intros H256 Hone. subst v.
    assert (He0 : as_uint8 (getMember (as_JsonObject json) "id") = 0).
    { rewrite He. reflexivity. }
    rewrite handleSetEffect_valid by (rewrite ?He0; first [assumption | lia]).
    cbn. rewrite He0. reflexivity.
Qed.

(** C10. In POST /api/led/brightness the [save] flag defaults to false:
    when the member is absent, or holds anything that is not a boolean,
    or holds false, the handler leaves the world exactly as the same
    request with save set to false does; the store is called only when
    the member is the boolean true. *)
Theorem handleBrightness_save_defaults_to_false json w :
  containsKey (as_JsonObject json) "value" = true ->
  let obj := as_JsonObject json in
  let save := getMember obj "save" in
  let w' := execState (handleBrightness json) w in
  (containsKey obj "save" = false \/ is_bool save = false \/ save = JBool false ->
     w' = execState
            (handleBrightness
               (JObject [("value", getMember obj "value"); ("save", JBool false)]))
            w)
  /\ exists d, calls w' = calls w ++ d
       /\ (existsb is_persistence d = true <-> save = JBool true).
Proof.
  intros Hval obj save w'. subst w'.
  rewrite (handleBrightness_present json w Hval). fold obj save.
  split.
  - intros Hcase.
    assert (Hor : or_bool save false = false).
    { destruct Hcase as [Habs | [Hnb | Hf]].
      - subst save. rewrite (getMember_absent obj "save" Habs). reflexivity.
      - apply or_bool_not_boolean. exact Hnb.
      - rewrite Hf. reflexivity. }
    rewrite Hor. rewrite handleBrightness_present by reflexivity.
    reflexivity.
  - eexists. cbn. split; [reflexivity|].
    rewrite <- or_bool_true_iff.
    destruct (or_bool save false); cbn; split; intros H; congruence.
Qed.

End Claims.

End LEDApiSpec.

(** ** The handlers run against the fake device *)
Module Checks.
Import LEDApi LEDApiSpec.
Import Fake.

Ltac arith :=
  first [ apply Z.leb_le; reflexivity | apply Z.ltb_lt; reflexivity ].

(** The body names one parameter; the blob written to the store holds
    both parameters of the effect. *)
Lemma handleSetParams_forwards_all_then_saves_full_set_witness :
  params_speed <> []
  /\ calls (execState (handleSetParams (JObject params_speed)) world0) =
       [LED_setParam "speed" (JInt 5); LED_getParamsJson;
        NVS_saveParams (print (JObject [("speed", JInt 5); ("hue", JInt 128)]))].
Proof.
  split; [discriminate|].
  exact (proj1 (handleSetParams_forwards_all_then_saves_full_set
                  params_speed world0 ltac:(discriminate))).
Defined.

(** With three effects, id 256 is not rejected: effect 0 is selected and
    saved, and the answer has code 200. *)
Lemma effect_id_256_is_accepted :
  containsKey (as_JsonObject effect_256) "id" = true
  /\ getMember (as_JsonObject effect_256) "id" = JInt 256
  /\ getNumEffects (led world0) <= 256
  /\ calls (execState (handleSetEffect effect_256) world0) =
       [LED_getNumEffects; LED_setEffect 0; NVS_saveEffect 0; LED_getEffectName]
  /\ map code (sent (execState (handleSetEffect effect_256) world0)) = [200].
Proof.
  repeat split; try reflexivity. arith.
Qed.

Lemma handleSetEffect_rejects_converted_id_out_of_range_witness :
  sent (execState (handleSetEffect effect_7) world0) =
    [errorResponse 400 "Invalid effect ID"]
  /\ calls (execState (handleSetEffect effect_7) world0) = [LED_getNumEffects]
  /\ led (execState (handleSetEffect effect_7) world0) = engine0
  /\ nvs (execState (handleSetEffect effect_7) world0) = flash0.
Proof.
  exact (handleSetEffect_rejects_converted_id_out_of_range effect_7 world0
           eq_refl ltac:(arith)).
Defined.

(** An id of -1 is below the number of effects, yet the effect selected,
    saved and echoed is 0, not -1. *)
Lemma effect_id_minus_1_selects_zero :
  containsKey (as_JsonObject effect_minus_1) "id" = true
  /\ getMember (as_JsonObject effect_minus_1) "id" = JInt (-1)
  /\ -1 < getNumEffects (led world0)
  /\ calls (execState (handleSetEffect effect_minus_1) world0) =
       [LED_getNumEffects; LED_setEffect 0; NVS_saveEffect 0; LED_getEffectName]
  /\ sent (execState (handleSetEffect effect_minus_1) world0) =
       [jsonResponse 200
          (JObject [("status", JString "ok"); ("effect", JInt 0);
                    ("effectName", JString "Rainbow")])]
  /\ 0 <> -1.
Proof.
  repeat split; try reflexivity; discriminate.
Qed.

Lemma handleSetEffect_selects_and_persists_converted_id_witness :
  calls (execState (handleSetEffect effect_2) world0) =
    [LED_getNumEffects; LED_setEffect 2; NVS_saveEffect 2; LED_getEffectName]
  /\ led (execState (handleSetEffect effect_2) world0) = setEffect 2 engine0
  /\ nvs (execState (handleSetEffect effect_2) world0) = saveEffect 2 flash0
  /\ sent (execState (handleSetEffect effect_2) world0) =
       [jsonResponse 200
          (JObject [("status", JString "ok"); ("effect", JInt 2);
                    ("effectName", JString "Sparkle")])].
Proof.
  exact (handleSetEffect_selects_and_persists_converted_id effect_2 world0
           eq_refl ltac:(arith)).
Defined.

Lemma handleBrightness_persists_iff_save_true_witness :
  calls (execState (handleBrightness brightness_200_save) world0) =
    [LED_setBrightness 200; NVS_saveBrightness 200]
  /\ calls (execState (handleBrightness brightness_200_save_1) world0) =
       [LED_setBrightness 200].
Proof.
  split.
  - exact (proj1 (proj1 (proj2 (handleBrightness_persists_iff_save_true
                                  brightness_200_save world0 eq_refl))
                    eq_refl)).
  - exact (proj1 (proj2 (proj2 (handleBrightness_persists_iff_save_true
                                  brightness_200_save_1 world0 eq_refl))
                    ltac:(discriminate))).
Defined.



(** A value of 300 is answered with code 200; the brightness applied is
    the converted one, 0. *)
Lemma handleBrightness_never_rejects_value_witness :
  0 <= 0 <= 255
  /\ led (execState (handleBrightness brightness_300) world0) =
       setBrightness 0 engine0
  /\ sent (execState (handleBrightness brightness_300) world0) =
       [jsonResponse 200
          (JObject [("status", JString "ok"); ("brightness", JInt 0)])].
Proof.
  exact (handleBrightness_never_rejects_value brightness_300 world0 eq_refl).
Defined.

(** Id 300 with three effects: 300 modulo 256 is 44, which is not below 3,
    yet the request is accepted and selects effect 0. *)
Lemma effect_id_300_is_not_checked_modulo_256 :
  getMember (as_JsonObject effect_300) "id" = JInt 300
  /\ (300 mod 256 <? getNumEffects (led world0)) = false
  /\ calls (execState (handleSetEffect effect_300) world0) =
       [LED_getNumEffects; LED_setEffect 0; NVS_saveEffect 0; LED_getEffectName]
  /\ map code (sent (execState (handleSetEffect effect_300) world0)) = [200].
Proof.
  repeat split; reflexivity.
Qed.

Lemma handleSetEffect_checks_converted_id_witness :
  calls (execState (handleSetEffect effect_256) world0) =
    [LED_getNumEffects; LED_setEffect 0; NVS_saveEffect 0; LED_getEffectName]
  /\ calls (execState (handleSetEffect effect_7) world0) = [LED_getNumEffects].
Proof.
  split.
  - exact (proj2 (proj2 (handleSetEffect_checks_converted_id
                           effect_256 world0 256 eq_refl eq_refl))
             eq_refl ltac:(arith)).
  - exact (proj1 (proj1 (proj2 (handleSetEffect_checks_converted_id
                                  effect_7 world0 7 eq_refl eq_refl))
                    ltac:(arith))).
Defined.

(** A [save] member holding the number 1 is not a boolean: the request
    behaves as the one with save false. *)
Lemma handleBrightness_save_defaults_to_false_witness :
  execState (handleBrightness brightness_200_save_1) world0 =
    execState
      (handleBrightness (JObject [("value", JInt 200); ("save", JBool false)]))
      world0.
Proof.
  exact (proj1 (handleBrightness_save_defaults_to_false
                  brightness_200_save_1 world0 eq_refl)
           (or_intror (or_introl eq_refl))).
Defined.

(** A power request and a null server, by evaluation. *)
Example handlePower_on_run :
  calls (execState (handlePower (JObject [("on", JBool true)])) world0) =
    [LED_setPower true]
  /\ nvs (execState (handlePower (JObject [("on", JBool true)])) world0) = flash0.
Proof. split; reflexivity. Qed.

Example begin_null_run :
  runState (begin None) world0 =
    (None, mkWorld engine0 flash0 [] [] [(LERROR, "LEDApi: Server is null!")]).
Proof. reflexivity. Qed.

Example begin_server_run :
  option_map (fun srv => length (handlers srv))
    (fst (runState (begin (Some (mkServer []))) world0)) = Some 8%nat.
Proof. reflexivity. Qed.

End Checks.

(** ** More of the module: the read-only routes, the shape of every
    answer, and how [begin] composes *)
Module LEDApiMore.
Import LEDApi LEDApiSpec Requests JsonFacts.

Section More.

Context {S N : Type}.
Context `{LED : LEDController S} `{NVS : NVSManager N}.
Context `{AJ : ArduinoJson} `{CFG : Config}.

Implicit Types (w : @World S N) (json : JsonVariant).

Lemma getHandler_run (g : GetRoute) w :
  exists line,
    execState (getHandler g) w =
      mkWorld (led w) (nvs w) (calls w ++ [getCall g])
        (sent w ++ [jsonResponse 200 (getDocument g (led w))])
        (serial w ++ [(LDEBUG, line)]).
Proof.
  destruct g; eexists; reflexivity.
Qed.

Lemma handleOptions_run w :
  execState handleOptions w =
    mkWorld (led w) (nvs w) (calls w)
      (sent w ++ [mkResponse 200 EmptyString EmptyString corsHeaders])
      (serial w).
Proof. reflexivity. Qed.

Lemma setParam_calls_are_setters (obj : JsonObject) :
  filter is_state_setter (map (fun kv => LED_setParam (fst kv) (snd kv)) obj) =
    map (fun kv => LED_setParam (fst kv) (snd kv)) obj.
Proof.
  induction obj as [|kv rest IH]; cbn; [reflexivity | rewrite IH; reflexivity].
Qed.

Lemma setParam_calls_do_not_persist (obj : JsonObject) :
  filter is_persistence (map (fun kv => LED_setParam (fst kv) (snd kv)) obj) = [].
Proof.
  induction obj as [|kv rest IH]; cbn; [reflexivity | exact IH].
Qed.

(** The cases of each JSON handler, each rewritten to the world it
    leaves. *)
Ltac effect_cases json w Hid Hr :=
  destruct (containsKey (as_JsonObject json) "id") eqn:Hid;
  [ destruct (Z.le_gt_cases (getNumEffects (led w))
                (as_uint8 (getMember (as_JsonObject json) "id"))) as [Hr | Hr];
    [ rewrite (handleSetEffect_invalid json w Hid Hr)
    | rewrite (handleSetEffect_valid json w Hid Hr) ]
  | rewrite (handleSetEffect_missing json w Hid) ].

Ltac params_cases json w Hobj :=
  destruct (as_JsonObject json) as [|kv rest] eqn:Hobj;
  [ rewrite (handleSetParams_empty json w Hobj)
  | rewrite (handleSetParams_nonempty json w
               ltac:(rewrite Hobj; discriminate)) ].

Ltac power_cases json w Hon :=
  destruct (containsKey (as_JsonObject json) "on") eqn:Hon;
  [ rewrite (handlePower_present json w Hon)
  | rewrite (handlePower_missing json w Hon) ].

Ltac brightness_cases json w Hval Hsave :=
  destruct (containsKey (as_JsonObject json) "value") eqn:Hval;
  [ rewrite (handleBrightness_present json w Hval);
    destruct (or_bool (getMember (as_JsonObject json) "save") false) eqn:Hsave
  | rewrite (handleBrightness_missing json w Hval) ].

(** A trace that adds nothing, and one that adds [d]. *)
Ltac no_call := exists []; cbn; rewrite app_nil_r.
Ltac some_calls := eexists; cbn; split; [reflexivity|].

(** The same when the response is to be exhibited too. *)
Ltac with_calls :=
  do 2 eexists; cbn; split; [reflexivity|]; split; [reflexivity|].
Ltac without_calls :=
  eexists; exists []; cbn; rewrite app_nil_r;
  split; [reflexivity|]; split; [reflexivity|].

(** X1. The three GET handlers only read: each makes one call, to its
    getter, answers 200 with the serialized document the getter fills
    from the current engine state, and leaves engine and store as they
    were. *)
Theorem get_routes_only_read (g : GetRoute) w :
  let w' := execState (getHandler g) w in
  calls w' = calls w ++ [getCall g]
  /\ sent w' = sent w ++ [jsonResponse 200 (getDocument g (led w))]
  /\ led w' = led w
  /\ nvs w' = nvs w.
Proof.
  intros w'. subst w'. destruct (getHandler_run g w) as [line Hrun].
  rewrite Hrun. cbn. repeat split; reflexivity.
Qed.

(** X2. The preflight handler answers 200 with no content type and an
    empty body, the three CORS headers on it, and does nothing else: no
    facade call, no log line, engine and store untouched. *)
Theorem preflight_answers_empty_200 w :
  let w' := execState handleOptions w in
  sent w' = sent w ++ [mkResponse 200 EmptyString EmptyString corsHeaders]
  /\ calls w' = calls w
  /\ serial w' = serial w
  /\ led w' = led w
  /\ nvs w' = nvs w.
Proof.
  intros w'. subst w'. rewrite handleOptions_run. cbn.
  repeat split; reflexivity.
Qed.

(** X3. Whatever the request and its body, the handler sends exactly one
    response; its code is 200 or 400, its headers are exactly the three
    CORS headers, and its content type is application/json, except for
    the preflight, which has none. *)
Theorem every_request_gets_one_response (rq : Request) w :
  exists r : Response,
    sent (execState (handle rq) w) = sent w ++ [r]
    /\ (code r = 200 \/ code r = 400)
    /\ headers r = corsHeaders
    /\ contentType r =
         match rq with
         | ReqOptions => EmptyString
         | _ => "application/json"
         end.
Proof.
  destruct rq as [ | | | | json | json | json | json]; cbn [handle].
  - eexists. rewrite handleOptions_run. cbn. auto.
  - destruct (getHandler_run GetStatus w) as [line Hrun]. cbn [getHandler] in Hrun.
    rewrite Hrun. eexists. cbn. auto.
  - destruct (getHandler_run GetEffects w) as [line Hrun]. cbn [getHandler] in Hrun.
    rewrite Hrun. eexists. cbn. auto.
  - destruct (getHandler_run GetParams w) as [line Hrun]. cbn [getHandler] in Hrun.
    rewrite Hrun. eexists. cbn. auto.
  - effect_cases json w Hid Hr; eexists; cbn; auto.
  - params_cases json w Hobj; eexists; cbn; auto.
  - power_cases json w Hon; eexists; cbn; auto.
  - brightness_cases json w Hval Hsave; eexists; cbn; auto.
Qed.

(** X4. No request makes more than one call to the store, whatever its
    body; the GET routes, the preflight and the power route make none. *)
Theorem at_most_one_store_call_per_request (rq : Request) w :
  exists d : list Call,
    calls (execState (handle rq) w) = calls w ++ d
    /\ (length (filter is_persistence d) <= 1)%nat
    /\ match rq with
       | ReqSetEffect _ | ReqSetParams _ | ReqBrightness _ => True
       | _ => filter is_persistence d = []
       end.
Proof.
  destruct rq as [ | | | | json | json | json | json]; cbn [handle].
  - rewrite handleOptions_run. no_call. auto.
  - destruct (getHandler_run GetStatus w) as [line Hrun]. cbn [getHandler] in Hrun.
    rewrite Hrun. some_calls. cbn. auto.
  - destruct (getHandler_run GetEffects w) as [line Hrun]. cbn [getHandler] in Hrun.
    rewrite Hrun. some_calls. cbn. auto.
  - destruct (getHandler_run GetParams w) as [line Hrun]. cbn [getHandler] in Hrun.
    rewrite Hrun. some_calls. cbn. auto.
  - effect_cases json w Hid Hr.
    + some_calls. cbn. auto.
    + some_calls. cbn. auto.
    + no_call. auto.
  - params_cases json w Hobj.
    + no_call. auto.
    + some_calls. rewrite filter_app, setParam_calls_do_not_persist. cbn. auto.
  - power_cases json w Hon.
    + some_calls. cbn. auto.
    + no_call. auto.
  - brightness_cases json w Hval Hsave.
    + some_calls. cbn. auto.
    + some_calls. cbn. auto.
    + no_call. auto.
Qed.

(** X5. A mutating endpoint either rejects or applies, for every body: it
    answers 400 after no setter and no store call, with engine and store
    unchanged, or it answers 200 after at least one setter call.  There
    is no 200 without a change requested of the engine and no 400 after
    one. *)
Theorem mutating_endpoint_rejects_or_applies (e : Endpoint) json w :
  let w' := execState (handlerOf e json) w in
  exists (r : Response) (d : list Call),
    sent w' = sent w ++ [r]
    /\ calls w' = calls w ++ d
    /\ ((code r = 400
         /\ existsb is_state_setter d = false
         /\ existsb is_persistence d = false
         /\ led w' = led w
         /\ nvs w' = nvs w)
        \/ (code r = 200 /\ existsb is_state_setter d = true)).
Proof.
  intros w'. subst w'. destruct e; cbn [handlerOf].
  - effect_cases json w Hid Hr.
    + with_calls. left. auto 6.
    + with_calls. right. auto.
    + without_calls. left. auto 6.
  - params_cases json w Hobj.
    + without_calls. left. auto 6.
    + with_calls. rewrite Hobj. cbn. right. auto.
  - power_cases json w Hon.
    + with_calls. right. auto.
    + without_calls. left. auto 6.
  - brightness_cases json w Hval Hsave.
    + with_calls. right. auto.
    + with_calls. right. auto.
    + without_calls. left. auto 6.
Qed.

(** X6. A body that is not a JSON object (an array, a number, a string,
    null) reads as an object without members, like the empty object; each
    mutating endpoint rejects such a body with 400 and its own message,
    before any facade call, the read of the number of effects included. *)
Theorem body_without_members_is_rejected (e : Endpoint) json w :
  as_JsonObject json = [] ->
  let w' := execState (handlerOf e json) w in
  sent w' = sent w ++ [errorResponse 400 (emptyBodyMessage e)]
  /\ calls w' = calls w
  /\ led w' = led w
  /\ nvs w' = nvs w.
Proof.
  intros Hempty w'. subst w'.
  assert (Hkey : forall key, containsKey (as_JsonObject json) key = false).
  { intros key. rewrite Hempty. reflexivity. }
  destruct e; cbn [handlerOf emptyBodyMessage].
  - rewrite (handleSetEffect_missing json w (Hkey "id")). cbn. auto.
  - rewrite (handleSetParams_empty json w Hempty). cbn. auto.
  - rewrite (handlePower_missing json w (Hkey "on")). cbn. auto.
  - rewrite (handleBrightness_missing json w (Hkey "value")). cbn. auto.
Qed.

(** X7. The answer to a parameter update with a non-empty body is 200
    with status ok and [updated], the number of members of the body; that
    is also the number of setter calls the request made, one per member,
    with none filtered out. *)
Theorem handleSetParams_reports_member_count (obj : JsonObject) w :
  obj <> [] ->
  let w' := execState (handleSetParams (JObject obj)) w in
  sent w' = sent w ++
    [jsonResponse 200
       (JObject [("status", JString "ok"); ("updated", JInt (size obj))])]
  /\ exists d : list Call,
       calls w' = calls w ++ d
       /\ Z.of_nat (length (filter is_state_setter d)) = size obj.
Proof.
  intros Hobj w'. subst w'.
  rewrite (handleSetParams_nonempty (JObject obj) w Hobj). cbn.
  split; [reflexivity|].
  eexists. split; [reflexivity|].
  rewrite filter_app, setParam_calls_are_setters. cbn.
  rewrite app_nil_r, length_map. reflexivity.
Qed.

(** X8. A power request whose [on] member is a JSON boolean applies that
    boolean: it is the argument of [setPower], the value echoed in the
    200 answer beside status ok, and the store is not touched. *)
Theorem handlePower_applies_and_echoes_boolean json w (b : bool) :
  containsKey (as_JsonObject json) "on" = true ->
  getMember (as_JsonObject json) "on" = JBool b ->
  let w' := execState (handlePower json) w in
  calls w' = calls w ++ [LED_setPower b]
  /\ led w' = setPower b (led w)
  /\ nvs w' = nvs w
  /\ sent w' = sent w ++
       [jsonResponse 200 (JObject [("status", JString "ok"); ("power", JBool b)])].
Proof.
  intros Hon Hb w'. subst w'.
  rewrite (handlePower_present json w Hon). rewrite Hb. cbn. auto.
Qed.

(** X9. A brightness request whose [value] is an integer within 0..255
    applies exactly that value: it is set on the engine, echoed in the
    200 answer, and it is the value written to the store when [save] is
    the boolean true (the store is left alone otherwise). *)
Theorem handleBrightness_applies_value_verbatim json w (v : Z) :
  containsKey (as_JsonObject json) "value" = true ->
  getMember (as_JsonObject json) "value" = JInt v ->
  0 <= v <= 255 ->
  let w' := execState (handleBrightness json) w in
  led w' = setBrightness v (led w)
  /\ sent w' = sent w ++
       [jsonResponse 200
          (JObject [("status", JString "ok"); ("brightness", JInt v)])]
  /\ nvs w' = match getMember (as_JsonObject json) "save" with
              | JBool true => saveBrightness v (nvs w)
              | _ => nvs w
              end.
Proof.
  intros Hval Hv Hfits w'. subst w'.
  rewrite (handleBrightness_present json w Hval). rewrite Hv. cbn.
  rewrite (convertNumber_uint8_fits v Hfits).
  split; [reflexivity|]. split; [reflexivity|].
  destruct (getMember (as_JsonObject json) "save") as [ | [|] | | | | | ];
    reflexivity.
Qed.

(** X10. A brightness request whose [value] is an integer below 0 or above
    255 is answered 200 all the same, and the brightness set on the
    engine and echoed in the answer is 0. *)
Theorem handleBrightness_out_of_range_sets_zero json w (v : Z) :
  containsKey (as_JsonObject json) "value" = true ->
  getMember (as_JsonObject json) "value" = JInt v ->
  v < 0 \/ 255 < v ->
  let w' := execState (handleBrightness json) w in
  led w' = setBrightness 0 (led w)
  /\ sent w' = sent w ++
       [jsonResponse 200
          (JObject [("status", JString "ok"); ("brightness", JInt 0)])].
Proof.
  intros Hval Hv Hout w'. subst w'.
  rewrite (handleBrightness_present json w Hval). rewrite Hv. cbn.
  rewrite (convertNumber_uint8_overflow v Hout).
  split; reflexivity.
Qed.

(** X11. The answers of the parameter, power and brightness routes are a
    function of the request body alone: from any two worlds, whatever the
    engine state, the store and the history, the same body gets the same
    response. *)
Theorem answer_depends_on_body_only (e : Endpoint) json w1 w2 :
  e <> EPEffect ->
  exists r : Response,
    sent (execState (handlerOf e json) w1) = sent w1 ++ [r]
    /\ sent (execState (handlerOf e json) w2) = sent w2 ++ [r].
Proof.
  intros He. destruct e; [contradiction | | | ]; cbn [handlerOf].
  - destruct (as_JsonObject json) as [|kv rest] eqn:Hobj.
    + rewrite (handleSetParams_empty json w1 Hobj),
              (handleSetParams_empty json w2 Hobj).
      eexists. cbn. split; reflexivity.
    + assert (Hne : as_JsonObject json <> []) by (rewrite Hobj; discriminate).
      rewrite (handleSetParams_nonempty json w1 Hne),
              (handleSetParams_nonempty json w2 Hne).
      eexists. cbn. split; reflexivity.
  - destruct (containsKey (as_JsonObject json) "on") eqn:Hon.
    + rewrite (handlePower_present json w1 Hon), (handlePower_present json w2 Hon).
      eexists. cbn. split; reflexivity.
    + rewrite (handlePower_missing json w1 Hon), (handlePower_missing json w2 Hon).
      eexists. cbn. split; reflexivity.
  - destruct (containsKey (as_JsonObject json) "value") eqn:Hval.
    + rewrite (handleBrightness_present json w1 Hval),
              (handleBrightness_present json w2 Hval).
      eexists. cbn. split; reflexivity.
    + rewrite (handleBrightness_missing json w1 Hval),
              (handleBrightness_missing json w2 Hval).
      eexists. cbn. split; reflexivity.
Qed.

(** X12. [begin] talks to no facade and sends nothing, with a server or
    without: engine, store, call trace and responses are as before.  It
    only writes to the log, and an error line is among what it writes
    exactly when the server is null. *)
Theorem begin_calls_no_facade (server : option AsyncWebServer) w :
  let w' := execState (begin server) w in
  led w' = led w
  /\ nvs w' = nvs w
  /\ calls w' = calls w
  /\ sent w' = sent w
  /\ exists lines : list (LogLevel * string),
       serial w' = serial w ++ lines
       /\ (existsb (fun l => match fst l with LERROR => true | _ => false end) lines
             = true <-> server = None).
Proof.
  intros w'. subst w'. destruct server as [srv|]; cbn.
  - repeat (split; [reflexivity|]).
    rewrite <- !app_assoc. eexists. split; [reflexivity|].
    cbn. split; intros H; discriminate H.
  - repeat (split; [reflexivity|]).
    eexists. split; [reflexivity|]. cbn. split; reflexivity.
Qed.

(** X13. [begin] has no guard against a second call: calling it again on
    the server it returned registers the eight handlers a second time,
    after the first eight; with a null server both calls register
    nothing. *)
Theorem begin_twice_registers_twice (srv : AsyncWebServer) w :
  fst (runState (beginTwice None) w) = None
  /\ exists srv2 : AsyncWebServer,
       fst (runState (beginTwice (Some srv)) w) = Some srv2
       /\ handlers srv2 = handlers srv ++ apiRoutes ++ apiRoutes.
Proof.
  split; [reflexivity|].
  exists (registerRoutes (registerRoutes srv)). split; [reflexivity|].
  rewrite !registerRoutes_handlers. rewrite <- app_assoc. reflexivity.
Qed.

(** X14. The type of the [id] member is not validated: when it is null,
    an array or an object it converts to 0, so as soon as the engine has
    one effect the request is accepted, effect 0 is selected and saved,
    and the answer is 200 with effect 0. *)
Theorem handleSetEffect_non_scalar_id_selects_zero json w :
  containsKey (as_JsonObject json) "id" = true ->
  is_null_or_container (getMember (as_JsonObject json) "id") = true ->
  1 <= getNumEffects (led w) ->
  let w' := execState (handleSetEffect json) w in
  calls w' = calls w ++ [LED_getNumEffects; LED_setEffect 0;
                         NVS_saveEffect 0; LED_getEffectName]
  /\ sent w' = sent w ++
       [jsonResponse 200
          (JObject [("status", JString "ok");
                    ("effect", JInt 0);
                    ("effectName", JString (getEffectName (setEffect 0 (led w))))])].
Proof.
  intros Hid Hkind Hone w'. subst w'.
  assert (He : as_uint8 (getMember (as_JsonObject json) "id") = 0).
  { destruct (getMember (as_JsonObject json) "id"); cbn in Hkind;
      try discriminate Hkind; reflexivity. }
  rewrite handleSetEffect_valid by (rewrite ?He; first [assumption | lia]).
  cbn. rewrite He. split; reflexivity.
Qed.

(** X15. When the engine reports no effect, no effect can be selected:
    every POST /api/led/effect request, whatever its body, is answered
    400, without a setter or store call, engine and store unchanged. *)
Theorem handleSetEffect_without_effects_rejects_all json w :
  getNumEffects (led w) <= 0 ->
  let w' := execState (handleSetEffect json) w in
  exists (message : string) (d : list Call),
    sent w' = sent w ++ [errorResponse 400 message]
    /\ calls w' = calls w ++ d
    /\ existsb is_state_setter d = false
    /\ existsb is_persistence d = false
    /\ led w' = led w
    /\ nvs w' = nvs w.
Proof.
  intros Hnone w'. subst w'.
  destruct (containsKey (as_JsonObject json) "id") eqn:Hid.
  - assert (Hr : getNumEffects (led w)
                   <= as_uint8 (getMember (as_JsonObject json) "id")).
    { pose proof (as_uint8_range (getMember (as_JsonObject json) "id")). lia. }
    rewrite (handleSetEffect_invalid json w Hid Hr).
    do 2 eexists. cbn. split; [reflexivity|]. split; [reflexivity|]. cbn. auto.
  - rewrite (handleSetEffect_missing json w Hid).
    eexists. exists []. cbn. rewrite app_nil_r. auto 6.
Qed.

Lemma execState_seq (a b : @M S N unit) w :
  execState (a ;; b) w = execState b (execState a w).
Proof.
  unfold execState. cbn. destruct (runState a w) as [u w1]. reflexivity.
Qed.

(** X16. The module keeps no state of its own between requests: a power
    or brightness request served twice in a row gets the same answer
    twice and makes the same facade calls twice, the second time after
    the first. *)
Theorem repeated_request_repeats_answer_and_calls (e : Endpoint) json w :
  e = EPPower \/ e = EPBrightness ->
  let w' := execState (twice (handlerOf e json)) w in
  exists (r : Response) (d : list Call),
    sent w' = sent w ++ [r; r]
    /\ calls w' = calls w ++ d ++ d.
Proof.
  intros He w'. subst w'. unfold twice. rewrite execState_seq.
  destruct He as [He | He]; subst e; cbn [handlerOf].
  - destruct (containsKey (as_JsonObject json) "on") eqn:Hon.
    + rewrite (handlePower_present json w Hon), (handlePower_present json _ Hon).
      cbn. rewrite <- !app_assoc.
      eexists. exists [LED_setPower (as_bool (getMember (as_JsonObject json) "on"))].
      split; reflexivity.
    + rewrite (handlePower_missing json w Hon), (handlePower_missing json _ Hon).
      cbn. rewrite <- !app_assoc.
      eexists. exists []. rewrite app_nil_r. split; reflexivity.
  - destruct (containsKey (as_JsonObject json) "value") eqn:Hval.
    + rewrite (handleBrightness_present json w Hval),
              (handleBrightness_present json _ Hval).
      cbn. rewrite <- !app_assoc.
      eexists.
      exists (LED_setBrightness (as_uint8 (getMember (as_JsonObject json) "value"))
              :: (if or_bool (getMember (as_JsonObject json) "save") false
                  then [NVS_saveBrightness
                          (as_uint8 (getMember (as_JsonObject json) "value"))]
                  else [])).
      split; [reflexivity|].
      destruct (or_bool (getMember (as_JsonObject json) "save") false); reflexivity.
    + rewrite (handleBrightness_missing json w Hval),
              (handleBrightness_missing json _ Hval).
      cbn. rewrite <- !app_assoc.
      eexists. exists []. rewrite app_nil_r. split; reflexivity.
Qed.

(** X17. Nothing is cached: a GET served after any other request answers
    with the document its getter fills from the engine state that request
    left, and adds one call, to that getter. *)
Theorem get_after_request_reads_current_state (rq : Request) (g : GetRoute) w :
  let w1 := execState (handle rq) w in
  let w2 := execState (handle rq ;; getHandler g) w in
  sent w2 = sent w1 ++ [jsonResponse 200 (getDocument g (led w1))]
  /\ calls w2 = calls w1 ++ [getCall g]
  /\ led w2 = led w1
  /\ nvs w2 = nvs w1.
Proof.
  intros w1 w2. subst w1 w2. rewrite execState_seq.
  destruct (getHandler_run g (execState (handle rq) w)) as [line Hrun].
  rewrite Hrun. cbn. repeat split; reflexivity.
Qed.

End More.

End LEDApiMore.

(** ** More runs against the fake device *)
Module MoreChecks.
Import LEDApi LEDApiMore Requests.
Import Fake.

(** An array sent to the parameter route. *)
Lemma body_without_members_is_rejected_witness :
  as_JsonObject not_an_object = []
  /\ sent (execState (handlerOf EPParams not_an_object) world0) =
       [errorResponse 400 "Empty parameters"]
  /\ calls (execState (handlerOf EPParams not_an_object) world0) = []
  /\ led (execState (handlerOf EPParams not_an_object) world0) = engine0
  /\ nvs (execState (handlerOf EPParams not_an_object) world0) = flash0.
Proof.
  split; [reflexivity|].
  exact (body_without_members_is_rejected EPParams not_an_object world0 eq_refl).
Defined.

(** Two members, one of them a key the effect does not have. *)
Lemma handleSetParams_reports_member_count_witness :
  sent (execState (handleSetParams params_two) world0) =
    [jsonResponse 200 (JObject [("status", JString "ok"); ("updated", JInt 2)])]
  /\ exists d : list Call,
       calls (execState (handleSetParams params_two) world0) = d
       /\ Z.of_nat (length (filter is_state_setter d)) = 2.
Proof.
  exact (handleSetParams_reports_member_count
           [("speed", JInt 5); ("sparkle", JBool true)] world0
           ltac:(discriminate)).
Defined.

Lemma handlePower_applies_and_echoes_boolean_witness :
  calls (execState (handlePower power_off) world0) = [LED_setPower false]
  /\ led (execState (handlePower power_off) world0) = setPower false engine0
  /\ nvs (execState (handlePower power_off) world0) = flash0
  /\ sent (execState (handlePower power_off) world0) =
       [jsonResponse 200
          (JObject [("status", JString "ok"); ("power", JBool false)])].
Proof.
  exact (handlePower_applies_and_echoes_boolean power_off world0 false
           eq_refl eq_refl).
Defined.

Lemma handleBrightness_applies_value_verbatim_witness :
  led (execState (handleBrightness brightness_200_save) world0) =
    setBrightness 200 engine0
  /\ sent (execState (handleBrightness brightness_200_save) world0) =
       [jsonResponse 200
          (JObject [("status", JString "ok"); ("brightness", JInt 200)])]
  /\ nvs (execState (handleBrightness brightness_200_save) world0) =
       saveBrightness 200 flash0.
Proof.
  exact (handleBrightness_applies_value_verbatim brightness_200_save world0 200
           eq_refl eq_refl ltac:(lia)).
Defined.

Lemma handleBrightness_out_of_range_sets_zero_witness :
  led (execState (handleBrightness brightness_300) world0) =
    setBrightness 0 engine0
  /\ sent (execState (handleBrightness brightness_300) world0) =
       [jsonResponse 200
          (JObject [("status", JString "ok"); ("brightness", JInt 0)])].
Proof.
  exact (handleBrightness_out_of_range_sets_zero brightness_300 world0 300
           eq_refl eq_refl ltac:(right; lia)).
Defined.

(** Two worlds that differ in engine state and history. *)
Lemma answer_depends_on_body_only_witness :
  exists r : Response,
    sent (execState (handlerOf EPBrightness brightness_300) world0) =
      sent world0 ++ [r]
    /\ sent (execState (handlerOf EPBrightness brightness_300) world1) =
         sent world1 ++ [r].
Proof.
  exact (answer_depends_on_body_only EPBrightness brightness_300 world0 world1
           ltac:(discriminate)).
Defined.

Lemma handleSetEffect_non_scalar_id_selects_zero_witness :
  calls (execState (handleSetEffect effect_null) world0) =
    [LED_getNumEffects; LED_setEffect 0; NVS_saveEffect 0; LED_getEffectName]
  /\ sent (execState (handleSetEffect effect_null) world0) =
       [jsonResponse 200
          (JObject [("status", JString "ok"); ("effect", JInt 0);
                    ("effectName", JString "Rainbow")])].
Proof.
  exact (handleSetEffect_non_scalar_id_selects_zero effect_null world0
           eq_refl eq_refl ltac:(apply Z.leb_le; reflexivity)).
Defined.

(** The engine without effects refuses an id of 2. *)
Lemma handleSetEffect_without_effects_rejects_all_witness :
  exists (message : string) (d : list Call),
    sent (execState (handleSetEffect (LED:=Bare.engine) effect_2) Bare.world0) =
      sent Bare.world0 ++ [errorResponse 400 message]
    /\ calls (execState (handleSetEffect (LED:=Bare.engine) effect_2) Bare.world0) =
         calls Bare.world0 ++ d
    /\ existsb is_state_setter d = false
    /\ existsb is_persistence d = false
    /\ led (execState (handleSetEffect (LED:=Bare.engine) effect_2) Bare.world0) =
         led Bare.world0
    /\ nvs (execState (handleSetEffect (LED:=Bare.engine) effect_2) Bare.world0) =
         nvs Bare.world0.
Proof.
  exact (handleSetEffect_without_effects_rejects_all (LED:=Bare.engine)
           effect_2 Bare.world0 ltac:(apply Z.leb_le; reflexivity)).
Defined.

Lemma repeated_request_repeats_answer_and_calls_witness :
  exists (r : Response) (d : list Call),
    sent (execState (twice (handlerOf EPBrightness brightness_200_save)) world0) =
      sent world0 ++ [r; r]
    /\ calls (execState (twice (handlerOf EPBrightness brightness_200_save)) world0) =
         calls world0 ++ d ++ d.
Proof.
  exact (repeated_request_repeats_answer_and_calls EPBrightness
           brightness_200_save world0 (or_intror eq_refl)).
Defined.

(** The routes by evaluation: a status read, and a read after a write. *)
Example handleStatus_run :
  calls (execState handleStatus world0) = [LED_getStatusJson]
  /\ sent (execState handleStatus world0) =
       [jsonResponse 200
          (JObject [("power", JBool true); ("brightness", JInt 64);
                    ("effect", JInt 1)])].
Proof. split; reflexivity. Qed.

Example status_after_effect_run :
  sent (execState (handle (ReqSetEffect effect_2) ;; handleStatus) world0) =
    [jsonResponse 200
       (JObject [("status", JString "ok"); ("effect", JInt 2);
                 ("effectName", JString "Sparkle")]);
     jsonResponse 200
       (JObject [("power", JBool true); ("brightness", JInt 64);
                 ("effect", JInt 2)])].
Proof. reflexivity. Qed.

End MoreChecks.
